(** * Local Food Wastage Management System: the query and report layer

    A shallow embedding of [streamlit_app.py]: the cached read helper
    [fetch_df], the derived reads [get_distinct_values] and
    [tables_present], the transactional write helper [run_write], the
    start-up table check, the browse filter builder, the CRUD handlers
    and the report catalogue, followed by the properties of that layer.

    The script is stateful in three ways: it talks to a relational store,
    it memoises reads in Streamlit's [st.cache_data] stores, and it emits
    user-interface elements.  All three are threaded explicitly through a
    [world] record by a small state-and-exception monad. *)

From Stdlib Require Import ZArith QArith Qround Lia Ascii.
From stdpp Require Import gmap strings list sorting pretty.

Local Open Scope string_scope.
Local Open Scope list_scope.

(** ** Values, parameter mappings and tabular results *)

(** A cell of a result set, or a Python value bound to a placeholder:
    SQLite's storage classes.  REAL cells are kept as exact rationals. *)
Inductive value : Type :=
  | VNull
  | VInt (n : Z)
  | VReal (q : Q)
  | VText (s : string).

#[global] Instance Q_eq_dec : EqDecision Q.
Proof. solve_decision. Defined.
#[global] Instance value_eq_dec : EqDecision value.
Proof. solve_decision. Defined.

(** [params: dict | None]: a Python dict from placeholder name to value. *)
Abbreviation params := (gmap string value).

(** [pd.DataFrame]: named columns in statement order and the rows. *)
Record DataFrame : Type := mkDataFrame {
  columns : list string;
  rows : list (list value)
}.

#[global] Instance DataFrame_eq_dec : EqDecision DataFrame.
Proof. solve_decision. Defined.

(** [pd.DataFrame()] *)
Definition empty_frame : DataFrame := mkDataFrame [] [].

(** [len(df)] and [df.empty] *)
Definition frame_len (df : DataFrame) : nat := length (rows df).
Definition frame_is_empty (df : DataFrame) : bool :=
  bool_decide (rows df = []) || bool_decide (columns df = []).

(** Position of a column label. *)
Fixpoint column_index (c : string) (cols : list string) : option nat :=
  match cols with
  | [] => None
  | c' :: cols' =>
      if decide (c = c') then Some 0%nat else S <$> column_index c cols'
  end.

(** ** Exceptions and user-interface elements *)

Inductive exn : Type :=
  | KeyError (key : string)
  | StopException.

Inductive element : Type :=
  | Title (s : string)
  | Header (s : string)
  | Subheader (s : string)
  | Markdown (s : string)
  | Caption (s : string)
  | ErrorBox (s : string)
  | SuccessBox (s : string)
  | WarningBox (s : string)
  | Table (df : DataFrame)
  | DownloadButton (file_name : string) (df : DataFrame).

#[global] Instance element_eq_dec : EqDecision element.
Proof. solve_decision. Defined.

(** ** Memo stores of [st.cache_data]

    An entry keeps the returned value, the elements the body emitted while
    it ran (Streamlit records them and replays them on every hit) and the
    time it was stored.  The store is an association list with at most one
    entry per key. *)
Record entry (A : Type) : Type := mkEntry {
  e_val : A;
  e_msgs : list element;
  e_time : nat
}.
Arguments mkEntry {A} _ _ _.
Arguments e_val {A} _.
Arguments e_msgs {A} _.
Arguments e_time {A} _.

Abbreviation memo K A := (list (K * entry A)).

Fixpoint memo_lookup {K A} `{EqDecision K} (k : K) (m : memo K A)
  : option (entry A) :=
  match m with
  | [] => None
  | (k', e) :: m' => if decide (k = k') then Some e else memo_lookup k m'
  end.

Definition memo_store {K A} `{EqDecision K} (k : K) (e : entry A)
    (m : memo K A) : memo K A :=
  (k, e) :: filter (λ ke, ke.1 ≠ k) m.

(** An entry is live strictly before [e_time + ttl]. *)
Definition live {A} (ttl now : nat) (e : entry A) : bool :=
  bool_decide (now < e_time e + ttl)%nat.

Definition TTL : nat := 60.

(** ** Statements handed to the store *)

Inductive stmt_kind : Type := Read | Write.

#[global] Instance stmt_kind_eq_dec : EqDecision stmt_kind.
Proof. solve_decision. Defined.

Record issued : Type := mkIssued {
  i_kind : stmt_kind;
  i_text : string;
  i_params : option params
}.

#[global] Instance issued_eq_dec : EqDecision issued.
Proof. solve_decision. Defined.

Abbreviation fetch_key := (string * option params)%type.

(** The write statements among those handed to the store. *)
Definition writes_of (l : list issued) : list issued :=
  filter (λ i, i_kind i = Write) l.

(** ** Outcome of a Python call: a value or a raised exception *)
Inductive result (A : Type) : Type :=
  | Ok (a : A)
  | Raise (e : exn).
Arguments Ok {A} _.
Arguments Raise {A} _.

(** ** Widget state of one run of the script *)

Inductive mode : Type :=
  | BrowseFilter
  | ContactDirectory
  | CRUDOperations
  | Reports.

(** The options of the "Choose table" select box. *)
Inductive table : Type := providers | receivers | food_listings | claims.

#[global] Instance table_eq_dec : EqDecision table.
Proof. solve_decision. Defined.

Definition table_name (t : table) : string :=
  match t with
  | providers => "providers"
  | receivers => "receivers"
  | food_listings => "food_listings"
  | claims => "claims"
  end.

(** The options of the claim "Status" select box. *)
Inductive status : Type := Pending | Completed | Cancelled.

Definition status_name (s : status) : string :=
  match s with
  | Pending => "Pending"
  | Completed => "Completed"
  | Cancelled => "Cancelled"
  end.

Record date : Type := mkDate { year : nat; month : nat; day : nat }.

(** The form of the "Add New Record" column that was submitted. *)
Inductive add_form : Type :=
  | AddProvider (name type_ address city contact : string)
  | AddReceiver (name category address city contact : string)
  | AddListing (provider_id : Z) (food_name food_type : string)
      (quantity : Z) (expiry_date : option date) (location : string)
  | AddClaim (food_id receiver_id : Z) (st : status) (ts : string).

Record inputs : Type := mkInputs {
  loc_choice : string;
  prov_choice : string;
  type_choice : string;
  mode_choice : mode;
  city_filter : string;
  city_filter_r : string;
  section : table;
  submitted : option add_form;
  rec_id : Z;
  col_to_update : string;
  new_val : string;
  update_clicked : bool;
  del_id : Z;
  delete_clicked : bool;
  choice : string;
  city_param : option string
}.

(** No form submitted and neither button pressed. *)
Definition untouched (i : inputs) : Prop :=
  submitted i = None ∧ update_clicked i = false ∧ delete_clicked i = false.

(** ** Pure helpers *)

(** [str.zfill] *)
Definition zfill (width : nat) (s : string) : string :=
  String.concat "" (replicate (width - String.length s) "0") +:+ s.

(** [datetime.combine(d, datetime.min.time()).isoformat()] *)
Definition isoformat (d : date) : string :=
  zfill 4 (pretty (year d)) +:+ "-" +:+ zfill 2 (pretty (month d)) +:+ "-"
  +:+ zfill 2 (pretty (day d)) +:+ "T00:00:00".

(** [s.replace(' ', '_')] *)
Fixpoint replace_spaces (s : string) : string :=
  match s with
  | EmptyString => EmptyString
  | String c s' =>
      String (if decide (c = " "%char) then "_"%char else c)
        (replace_spaces s')
  end.

(** [sub in s] *)
Definition contains (sub s : string) : bool :=
  match String.index 0 sub s with Some _ => true | None => false end.

(** [df[c].tolist()], when the frame has a column labelled [c]. *)
Definition column_values (c : string) (df : DataFrame)
  : option (list value) :=
  i ← column_index c (columns df);
  Some ((λ r, default VNull (r !! i)) <$> rows df).

(** [.dropna()] *)
Definition dropna (l : list value) : list value :=
  filter (λ v, v ≠ VNull) l.

(** The string members of [set(l)]; the set is only ever compared with
    table names. *)
Definition text_set (l : list value) : gset string :=
  list_to_set (omap (λ v, match v with VText s => Some s | _ => None end) l).

(** [sorted(s)] on a set of strings. *)
Definition sorted (s : gset string) : list string :=
  merge_sort String.le (elements s).

Definition REQUIRED_TABLES : gset string :=
  {[ "providers"; "receivers"; "food_listings"; "claims" ]}.

Definition catalog_q : string :=
  "SELECT name FROM sqlite_master WHERE type='table'".

Definition distinct_q (table column : string) : string :=
  "SELECT DISTINCT " +:+ column +:+ " AS val FROM " +:+ table +:+ " WHERE "
  +:+ column +:+ " IS NOT NULL ORDER BY 1".

(** *** Browse and filter: the statement and its bindings *)

Definition base_q : string := "
        SELECT f.food_id, f.food_name, f.food_type, f.quantity, f.expiry_date,
               f.location, p.name AS provider_name, p.contact AS provider_contact
        FROM food_listings f
        LEFT JOIN providers p ON f.provider_id = p.provider_id
        WHERE 1=1
    ".

Definition loc_pred : string :=
  " AND LOWER(TRIM(f.location)) = LOWER(TRIM(:loc))".
Definition pname_pred : string :=
  " AND LOWER(TRIM(p.name)) = LOWER(TRIM(:pname))".
Definition ft_pred : string :=
  " AND LOWER(TRIM(f.food_type)) = LOWER(TRIM(:ft))".
Definition order_by : string :=
  " ORDER BY COALESCE(f.expiry_date, '9999-12-31') ASC".

(** One [if choice != "All":] block: extend the text and bind the value. *)
Definition add_filter (choice pred name : string) (qp : string * params)
  : string * params :=
  if decide (choice ≠ "All")
  then (qp.1 +:+ pred, <[name := VText choice]> qp.2)
  else qp.

Definition browse_query (loc prov ft : string) : string * params :=
  let qp := (base_q, ∅) in
  let qp := add_filter loc loc_pred "loc" qp in
  let qp := add_filter prov pname_pred "pname" qp in
  let qp := add_filter ft ft_pred "ft" qp in
  (qp.1 +:+ order_by, qp.2).

(** *** Contact directory *)

Definition city_pred : string :=
  " AND LOWER(TRIM(city)) = LOWER(TRIM(:city))".

Definition providers_directory_query (city : string) : string * params :=
  add_filter city city_pred "city"
    ("SELECT provider_id, name, type, city, contact, address FROM providers WHERE 1=1", ∅).

Definition receivers_directory_query (city : string) : string * params :=
  add_filter city city_pred "city"
    ("SELECT receiver_id, name, type, city, contact FROM receivers WHERE 1=1", ∅).

(** *** CRUD statements *)

Definition preview_q (t : table) : string :=
  "SELECT * FROM " +:+ table_name t +:+ " LIMIT 25".

Definition id_col (t : table) : string :=
  match t with
  | providers => "provider_id"
  | receivers => "receiver_id"
  | food_listings => "food_id"
  | claims => "claim_id"
  end.

Definition insert_provider_q : string :=
  "INSERT INTO providers (name, type, address, city, contact) VALUES (:name, :type, :address, :city, :contact)".
Definition insert_receiver_q : string :=
  "INSERT INTO receivers (name, category, address, city, contact) VALUES (:name, :category, :address, :city, :contact)".
Definition insert_listing_q : string :=
  "INSERT INTO food_listings (provider_id, food_name, food_type, quantity, expiry_date, location) VALUES (:pid, :fname, :ftype, :qty, :exp, :loc)".
Definition insert_claim_q : string :=
  "INSERT INTO claims (food_id, receiver_id, status, timestamp) VALUES (:fid, :rid, :status, :ts)".

(** The statement and bindings a submitted form hands to [run_write].
    A form is only on screen for its own table. *)
Definition insert_stmt (t : table) (f : add_form)
  : option (string * params) :=
  match t, f with
  | providers, AddProvider name type_ address city contact =>
      Some (insert_provider_q,
            <["contact" := VText contact]> (<["city" := VText city]>
            (<["address" := VText address]> (<["type" := VText type_]>
            {["name" := VText name]}))))
  | receivers, AddReceiver name category address city contact =>
      Some (insert_receiver_q,
            <["contact" := VText contact]> (<["city" := VText city]>
            (<["address" := VText address]> (<["category" := VText category]>
            {["name" := VText name]}))))
  | food_listings, AddListing pid fname ftype qty exp loc =>
      Some (insert_listing_q,
            <["loc" := VText loc]>
            (<["exp" := from_option (λ d, VText (isoformat d)) VNull exp]>
            (<["qty" := VInt qty]> (<["ftype" := VText ftype]>
            (<["fname" := VText fname]> {["pid" := VInt pid]})))))
  | claims, AddClaim fid rid st ts =>
      Some (insert_claim_q,
            <["ts" := VText ts]> (<["status" := VText (status_name st)]>
            (<["rid" := VInt rid]> {["fid" := VInt fid]})))
  | _, _ => None
  end.

Definition update_q (t : table) (col : string) : string :=
  "UPDATE " +:+ table_name t +:+ " SET " +:+ col +:+ " = :val WHERE "
  +:+ id_col t +:+ " = :id".

Definition update_params (val : string) (id : Z) : params :=
  <["id" := VInt id]> {["val" := VText val]}.

Definition delete_q (t : table) : string :=
  "DELETE FROM " +:+ table_name t +:+ " WHERE " +:+ id_col t +:+ " = :id".

Definition delete_params (id : Z) : params := {["id" := VInt id]}.

(** *** Report catalogue *)

Definition Q11 : string :=
  "SELECT status, COUNT(*) AS cnt, ROUND(100.0 * COUNT(*) / (SELECT COUNT(*) FROM claims), 2) AS pct FROM claims GROUP BY status;".

Definition QUERIES : list (string * string) := [
  ("Q1: Providers per city", "SELECT city, COUNT(*) AS num_providers FROM providers GROUP BY city ORDER BY num_providers DESC;");
  ("Q2: Receivers per city", "SELECT city, COUNT(*) AS num_receivers FROM receivers GROUP BY city ORDER BY num_receivers DESC;");
  ("Q3: Which type of food provider contributes the most food", "SELECT p.type AS provider_type, SUM(f.quantity) AS total_quantity FROM food_listings f JOIN providers p ON f.provider_id = p.provider_id GROUP BY p.type ORDER BY total_quantity DESC;");
  ("Q4: Contact info of providers by city", "SELECT name, contact, address FROM providers WHERE LOWER(TRIM(city)) = LOWER(TRIM(:city_name));");
  ("Q5: Which receivers have claimed the most food", "SELECT r.receiver_id, r.name, COUNT(c.claim_id) AS claims_count FROM claims c JOIN receivers r ON c.receiver_id = r.receiver_id GROUP BY r.receiver_id, r.name ORDER BY claims_count DESC LIMIT 20;");
  ("Q6: Total quantity of food available", "SELECT SUM(quantity) AS total_available_quantity FROM food_listings;");
  ("Q7: Which city has highest number of food listings", "SELECT location AS city, COUNT(*) AS listings_count FROM food_listings GROUP BY location ORDER BY listings_count DESC LIMIT 10;");
  ("Q8: Most commonly available food types", "SELECT food_type, COUNT(*) AS cnt FROM food_listings GROUP BY food_type ORDER BY cnt DESC LIMIT 10;");
  ("Q9: Claims count per food item", "SELECT f.food_id, f.food_name, COUNT(c.claim_id) AS claim_count FROM food_listings f LEFT JOIN claims c ON f.food_id = c.food_id GROUP BY f.food_id, f.food_name ORDER BY claim_count DESC;");
  ("Q10: Provider with highest number of completed claims", "SELECT p.provider_id, p.name, COUNT(c.claim_id) AS completed_claims FROM claims c JOIN food_listings f ON c.food_id = f.food_id JOIN providers p ON f.provider_id = p.provider_id WHERE LOWER(c.status) = 'completed' GROUP BY p.provider_id, p.name ORDER BY completed_claims DESC LIMIT 10;");
  ("Q11: Claim status distribution", Q11);
  ("Q12: Average quantity of food claimed per receiver", "SELECT r.receiver_id, r.name, ROUND(AVG(f.quantity),2) AS avg_quantity_per_claim FROM claims c JOIN food_listings f ON c.food_id = f.food_id JOIN receivers r ON c.receiver_id = r.receiver_id GROUP BY r.receiver_id, r.name ORDER BY avg_quantity_per_claim DESC LIMIT 20;");
  ("Q13: Meal type claimed the most", "SELECT f.meal_type, COUNT(c.claim_id) AS times_claimed FROM claims c JOIN food_listings f ON c.food_id = f.food_id GROUP BY f.meal_type ORDER BY times_claimed DESC;");
  ("Q14: Total quantity donated by each provider", "SELECT p.provider_id, p.name, SUM(f.quantity) AS total_donated FROM food_listings f JOIN providers p ON f.provider_id = p.provider_id GROUP BY p.provider_id, p.name ORDER BY total_donated DESC LIMIT 20;");
  ("Q15: Claims per day", "SELECT DATE(timestamp) AS day, COUNT(*) AS claims_count FROM claims GROUP BY day ORDER BY day;");
  ("Q16: Distribution efficiency (% completed listings per provider)", "WITH provider_listings AS (SELECT provider_id, COUNT(*) AS total_listings FROM food_listings GROUP BY provider_id), provider_completed AS (SELECT f.provider_id, COUNT(c.claim_id) AS completed_claims FROM claims c JOIN food_listings f ON c.food_id = f.food_id WHERE LOWER(c.status) = 'completed' GROUP BY f.provider_id) SELECT pr.provider_id, pr.name, COALESCE(pc.completed_claims,0) AS completed_claims, pl.total_listings, ROUND(100.0 * COALESCE(pc.completed_claims,0) / pl.total_listings,2) AS pct_completed FROM provider_listings pl JOIN providers pr ON pl.provider_id = pr.provider_id LEFT JOIN provider_completed pc ON pl.provider_id = pc.provider_id ORDER BY pct_completed DESC LIMIT 20;")
].

(** [QUERIES[choice]] *)
Fixpoint query_of (choice : string) (qs : list (string * string))
  : option string :=
  match qs with
  | [] => None
  | (k, q) :: qs' => if decide (choice = k) then Some q else query_of choice qs'
  end.

(** ** The layer over an arbitrary store *)
Section Layer.

(** The state of the relational store behind [engine]. *)
Context {DB : Type}.

(** [pd.read_sql_query(text(query), engine, params=params)]: the frame,
    or the text of the exception raised. *)
Variable read_sql : string → option params → DB → string + DataFrame.

(** [conn.execute(text(query), params)] inside [with engine.begin()]:
    the state the connection has reached when the block is left, and the
    text of the exception if one was raised on the way. *)
Variable exec_sql : string → params → DB → DB * option string.

(** Python's [str] on a float cell. *)
Variable float_repr : Q → string.

(** *** The world the script runs in *)
Record world : Type := mkWorld {
  db : DB;
  now : nat;
  fetch_cache : memo fetch_key DataFrame;
  distinct_cache : memo (string * string) (list string);
  tables_cache : memo unit (gset string);
  out : list element;
  store_log : list issued
}.

Definition set_db (d : DB) (w : world) : world :=
  mkWorld d (now w) (fetch_cache w) (distinct_cache w) (tables_cache w)
    (out w) (store_log w).
Definition set_now (t : nat) (w : world) : world :=
  mkWorld (db w) t (fetch_cache w) (distinct_cache w) (tables_cache w)
    (out w) (store_log w).
Definition set_fetch_cache (m : memo fetch_key DataFrame) (w : world)
  : world :=
  mkWorld (db w) (now w) m (distinct_cache w) (tables_cache w)
    (out w) (store_log w).
Definition set_distinct_cache (m : memo (string * string) (list string))
    (w : world) : world :=
  mkWorld (db w) (now w) (fetch_cache w) m (tables_cache w)
    (out w) (store_log w).
Definition set_tables_cache (m : memo unit (gset string)) (w : world)
  : world :=
  mkWorld (db w) (now w) (fetch_cache w) (distinct_cache w) m
    (out w) (store_log w).
Definition set_out (o : list element) (w : world) : world :=
  mkWorld (db w) (now w) (fetch_cache w) (distinct_cache w)
    (tables_cache w) o (store_log w).
Definition set_store_log (l : list issued) (w : world) : world :=
  mkWorld (db w) (now w) (fetch_cache w) (distinct_cache w)
    (tables_cache w) (out w) l.

(** The process starts with empty memo stores and an empty page. *)
Definition startup (d : DB) (t : nat) : world :=
  mkWorld d t [] [] [] [] [].

(** *** State and exceptions *)
Definition M (A : Type) : Type := world → result A * world.

#[global] Instance M_ret : MRet M := λ A a w, (Ok a, w).
#[global] Instance M_bind : MBind M := λ A B f m w,
  match m w with
  | (Ok a, w') => f a w'
  | (Raise e, w') => (Raise e, w')
  end.
Definition raise {A} (e : exn) : M A := λ w, (Raise e, w).

(** [st.title], [st.error], ...: append an element to the page. *)
Definition emit (e : element) : M unit :=
  λ w, (Ok (), set_out (out w ++ [e]) w).

(** The engine is handed a statement. *)
Definition record (i : issued) : M unit :=
  λ w, (Ok (), set_store_log (store_log w ++ [i]) w).

(** *** [@st.cache_data(ttl=...)]

    Around a body, for the store selected by [get]/[set].  A live entry
    is returned and its recorded elements are replayed.  Otherwise the
    body runs; if it returns, the value is stored together with the
    elements it emitted; if it raises, nothing is stored. *)
Definition cache_hit {K A} `{EqDecision K} (ttl : nat) (k : K)
    (m : memo K A) (t : nat) : option (entry A) :=
  e ← memo_lookup k m;
  if live ttl t e then Some e else None.

Definition cache_data {K A} `{EqDecision K}
    (get : world → memo K A) (set : memo K A → world → world)
    (ttl : nat) (k : K) (body : M A) : M A :=
  λ w,
    match cache_hit ttl k (get w) (now w) with
    | Some e => (Ok (e_val e), set_out (out w ++ e_msgs e) w)
    | None =>
        match body (set_out [] w) with
        | (Ok a, w') =>
            (Ok a,
             set_out (out w ++ out w')
               (set (memo_store k (mkEntry a (out w') (now w')) (get w'))
                  w'))
        | (Raise x, w') => (Raise x, set_out (out w ++ out w') w')
        end
    end.

(** [f.clear()] *)
Definition clear_fetch_df : M unit :=
  λ w, (Ok (), set_fetch_cache [] w).
Definition clear_get_distinct_values : M unit :=
  λ w, (Ok (), set_distinct_cache [] w).

(** *** Helpers of the script *)

(** Run a read statement against the current state of the store. *)
Definition read_store (query : string) (ps : option params)
  : M (string + DataFrame) :=
  λ w, (Ok (read_sql query ps (db w)), w).

(** Run a write statement on a connection opened on the current state. *)
Definition exec_store (query : string) (ps : params)
  : M (DB * option string) :=
  λ w, (Ok (exec_sql query ps (db w)), w).

(** Leaving the [with engine.begin()] block without an exception. *)
Definition commit (d : DB) : M unit := λ w, (Ok (), set_db d w).

(** The body of [fetch_df]: the try/except around the read. *)
Definition fetch_df_body (query : string) (ps : option params)
  : M DataFrame :=
  record (mkIssued Read query ps);;
  r ← read_store query ps;
  match r with
  | inr df => mret df
  | inl e => emit (ErrorBox ("SQL error: " +:+ e));; mret empty_frame
  end.

Definition fetch_df (query : string) (ps : option params) : M DataFrame :=
  cache_data fetch_cache set_fetch_cache TTL (query, ps)
    (fetch_df_body query ps).

(** [df[c]]: raises [KeyError] when the label is missing. *)
Definition getitem (df : DataFrame) (c : string) : M (list value) :=
  match column_values c df with
  | Some l => mret l
  | None => raise (KeyError c)
  end.

(** [.astype(str)] on one cell. *)
Definition value_str (v : value) : string :=
  match v with
  | VNull => "None"
  | VInt n => pretty n
  | VReal q => float_repr q
  | VText s => s
  end.

Definition get_distinct_values_body (table column : string)
  : M (list string) :=
  df ← fetch_df (distinct_q table column) None;
  vals ← getitem df "val";
  mret (value_str <$> dropna vals).

Definition get_distinct_values (table column : string) : M (list string) :=
  cache_data distinct_cache set_distinct_cache TTL (table, column)
    (get_distinct_values_body table column).

(** [run_write]: the [with engine.begin()] block commits the state the
    statement reached when no exception left the block; otherwise that
    state is dropped and the store stays as it was before the block. *)
Definition run_write (query : string) (ps : option params) : M unit :=
  record (mkIssued Write query (Some (default ∅ ps)));;
  r ← exec_store query (default ∅ ps);
  match r with
  | (d', None) =>
      commit d';;
      emit (SuccessBox "Operation successful.");;
      clear_fetch_df;;
      clear_get_distinct_values
  | (_, Some e) => emit (ErrorBox ("Write error: " +:+ e))
  end.

Definition tables_present_body : M (gset string) :=
  df ← fetch_df catalog_q None;
  names ← getitem df "name";
  mret (text_set names).

Definition tables_present : M (gset string) :=
  cache_data tables_cache set_tables_cache TTL ()
    tables_present_body.

(** *** The script, top to bottom *)

(** The required-table check; [st.stop()] ends the run. *)
Definition check_tables : M unit :=
  present ← tables_present;
  let missing := REQUIRED_TABLES ∖ present in
  if decide (missing ≠ ∅)
  then
    emit (WarningBox ("⚠️ Some required tables are missing: "
                      +:+ String.concat ", " (sorted missing)));;
    raise StopException
  else mret ().

Definition sidebar : M unit :=
  emit (Header "Filters");;
  _ ← get_distinct_values "food_listings" "location";
  _ ← get_distinct_values "providers" "name";
  _ ← get_distinct_values "food_listings" "food_type";
  emit (Markdown "---").

Definition browse_page (i : inputs) : M unit :=
  emit (Subheader "Browse Food Listings with Filters");;
  let qp := browse_query (loc_choice i) (prov_choice i) (type_choice i) in
  df ← fetch_df qp.1 (Some qp.2);
  emit (Caption ("Found " +:+ pretty (frame_len df) +:+ " listing(s)"));;
  emit (Table df).

Definition contact_page (i : inputs) : M unit :=
  emit (Subheader "Contact Providers & Receivers");;
  emit (Markdown "### Providers");;
  _ ← get_distinct_values "providers" "city";
  let qp := providers_directory_query (city_filter i) in
  pdf ← fetch_df qp.1 (Some qp.2);
  emit (Table pdf);;
  emit (Markdown "### Receivers");;
  _ ← get_distinct_values "receivers" "city";
  let qp := receivers_directory_query (city_filter_r i) in
  rdf ← fetch_df qp.1 (Some qp.2);
  emit (Table rdf).

(** [if submitted: run_write(...)] of the form on screen. *)
Definition submit (t : table) (f : add_form) : M unit :=
  match insert_stmt t f with
  | Some qp => run_write qp.1 (Some qp.2)
  | None => mret ()
  end.

(** The "Add New Record" column. *)
Definition create_column (i : inputs) : M unit :=
  emit (Markdown "### Add New Record");;
  match submitted i with
  | Some f => submit (section i) f
  | None => mret ()
  end.

(** The "Update Record" column. *)
Definition update_column (i : inputs) : M unit :=
  emit (Markdown "### Update Record");;
  if update_clicked i
  then
    if decide (col_to_update i ≠ "")
    then run_write (update_q (section i) (col_to_update i))
           (Some (update_params (new_val i) (rec_id i)))
    else mret ()
  else mret ().

(** The "Delete Record" column. *)
Definition delete_column (i : inputs) : M unit :=
  emit (Markdown "### Delete Record");;
  if delete_clicked i
  then run_write (delete_q (section i)) (Some (delete_params (del_id i)))
  else mret ().

Definition crud_page (i : inputs) : M unit :=
  emit (Subheader "Create / Read / Update / Delete");;
  emit (Markdown "#### Preview (Top 25)");;
  df ← fetch_df (preview_q (section i)) None;
  emit (Table df);;
  emit (Markdown "---");;
  create_column i;;
  update_column i;;
  delete_column i.

Definition reports_page (i : inputs) : M unit :=
  emit (Subheader "Predefined Reports (16 SQL Queries)");;
  ps ← (if contains "Q4" (choice i)
        then
          _ ← get_distinct_values "providers" "city";
          mret (Some {["city_name" :=
                        from_option VText VNull (city_param i)]})
        else mret None);
  q ← (match query_of (choice i) QUERIES with
       | Some q => mret q
       | None => raise (KeyError (choice i))
       end);
  df ← fetch_df q ps;
  emit (Caption ("Returned " +:+ pretty (frame_len df) +:+ " row(s)"));;
  emit (Table df);;
  if frame_is_empty df
  then mret ()
  else emit (DownloadButton (replace_spaces (choice i) +:+ ".csv") df).

Definition app (i : inputs) : M unit :=
  emit (Title "Local Food Wastage Management System");;
  check_tables;;
  sidebar;;
  match mode_choice i with
  | BrowseFilter => browse_page i
  | ContactDirectory => contact_page i
  | CRUDOperations => crud_page i
  | Reports => reports_page i
  end.

(** *** Interactions between two reads

    What may happen between a read and its repetition: other reads, the
    derived reads, writes, and the clock moving. *)
Inductive op : Type :=
  | OFetch (q : string) (ps : option params)
  | ODistinct (table column : string)
  | OTables
  | OWrite (q : string) (ps : option params)
  | OTick (t : nat).

Definition run_op (o : op) (w : world) : world :=
  match o with
  | OFetch q ps => (fetch_df q ps w).2
  | ODistinct t c => (get_distinct_values t c w).2
  | OTables => (tables_present w).2
  | OWrite q ps => (run_write q ps w).2
  | OTick t => set_now t w
  end.

Definition run_ops (os : list op) (w : world) : world :=
  foldl (λ w o, run_op o w) w os.

(** No write of the trace succeeds and the clock stays before
    [deadline]. *)
Fixpoint quiet (deadline : nat) (os : list op) (w : world) : bool :=
  match os with
  | [] => true
  | o :: os' =>
      match o with
      | OWrite q ps =>
          match (exec_sql q (default ∅ ps) (db w)).2 with
          | Some _ => true
          | None => false
          end
      | OTick t => bool_decide (t < deadline)%nat
      | _ => true
      end && quiet deadline os' (run_op o w)
  end.

(** An entry of the read memo that is in the store and still live. *)
Definition kept (k : fetch_key) (e : entry DataFrame) (w : world) : Prop :=
  memo_lookup k (fetch_cache w) = Some e ∧ (now w < e_time e + TTL)%nat.

(** The store is in state [d] and has been handed the writes [l]. *)
Definition unwritten (d : DB) (l : list issued) (w : world) : Prop :=
  db w = d ∧ writes_of (store_log w) = l.

(** What a read that reaches the store returns and shows. *)
Definition read_value (q : string) (ps : option params) (d : DB)
  : DataFrame :=
  match read_sql q ps d with inr df => df | inl _ => empty_frame end.

Definition read_msgs (q : string) (ps : option params) (d : DB)
  : list element :=
  match read_sql q ps d with
  | inr _ => []
  | inl e => [ErrorBox ("SQL error: " +:+ e)]
  end.

End Layer.

Arguments world : clear implicits.
Arguments M : clear implicits.

(** ** The contracts of the specification, in its own words *)

(** A case-insensitive, whitespace-trimmed equality predicate. *)
Definition predicate (column param : string) : string :=
  "LOWER(TRIM(" +:+ column +:+ ")) = LOWER(TRIM(:" +:+ param +:+ "))".

(** A filter selection: the column, the placeholder and the choice. *)
Record selection : Type := mkSelection {
  s_column : string;
  s_param : string;
  s_choice : string
}.

Definition browse_selections (loc prov ft : string) : list selection :=
  [mkSelection "f.location" "loc" loc; mkSelection "p.name" "pname" prov;
   mkSelection "f.food_type" "ft" ft].

(** The filters that are not left at the sentinel. *)
Definition active (sels : list selection) : list selection :=
  filter (λ s, s_choice s ≠ "All") sels.

(** One predicate per active filter, each joined on with AND. *)
Definition where_clause (sels : list selection) : string :=
  String.concat ""
    ((λ s, " AND " +:+ predicate (s_column s) (s_param s)) <$> active sels).

Definition bindings (sels : list selection) : params :=
  list_to_map ((λ s, (s_param s, VText (s_choice s))) <$> active sels).

(** Occurrences of [sub] in [s], overlapping ones included. *)
Fixpoint occurrences (sub s : string) : nat :=
  match s with
  | EmptyString => 0
  | String _ s' =>
      (if String.prefix sub s then 1 else 0) + occurrences sub s'
  end%nat.


(** ** The store: a fragment of SQLite

    The statements of the script are text; what they compute is up to the
    SQL engine.  This module gives the relational meaning of the
    statements the properties below talk about: the catalogue query, the
    browse query in its eight shapes, the distinct-value queries of the
    filter boxes, report Q11, the inserts, the deletes and two updates.
    Any other statement is answered with an error. *)
Module SQLite.

(** Modelled from the spec: the schema of the four tables (section 3,
    Data Model), which the script uses but never declares.  Columns are
    named as the script's statements name them; key columns hold
    integers, references and quantities hold NULL or an integer, every
    other column holds NULL or text. *)
Record provider : Type := mkProvider {
  provider_id : Z;
  p_name : option string;
  p_type : option string;
  p_address : option string;
  p_city : option string;
  p_contact : option string
}.

Record receiver : Type := mkReceiver {
  receiver_id : Z;
  r_name : option string;
  r_type : option string;
  r_city : option string;
  r_contact : option string
}.

Record listing : Type := mkListing {
  food_id : Z;
  f_provider_id : option Z;
  f_food_name : option string;
  f_food_type : option string;
  f_meal_type : option string;
  f_quantity : option Z;
  f_expiry_date : option string;
  f_location : option string
}.

Record claim : Type := mkClaim {
  claim_id : Z;
  c_food_id : option Z;
  c_receiver_id : option Z;
  c_status : option string;
  c_timestamp : option string
}.

#[global] Instance provider_eq_dec : EqDecision provider.
Proof. solve_decision. Defined.
#[global] Instance receiver_eq_dec : EqDecision receiver.
Proof. solve_decision. Defined.
#[global] Instance listing_eq_dec : EqDecision listing.
Proof. solve_decision. Defined.
#[global] Instance claim_eq_dec : EqDecision claim.
Proof. solve_decision. Defined.

(** The store: the catalogue of table names and the rows of each table. *)
Record DB : Type := mkDB {
  catalog : list string;
  t_providers : list provider;
  t_receivers : list receiver;
  t_listings : list listing;
  t_claims : list claim
}.

Definition text_cell (o : option string) : value := from_option VText VNull o.
Definition int_cell (o : option Z) : value := from_option VInt VNull o.

(** A bound value read as text: [Some None] is NULL. *)
Definition as_text (v : value) : option (option string) :=
  match v with
  | VNull => Some None
  | VText s => Some (Some s)
  | _ => None
  end.

Definition as_int (v : value) : option (option Z) :=
  match v with
  | VNull => Some None
  | VInt n => Some (Some n)
  | _ => None
  end.

(** *** Scalar functions *)

(** [LOWER]: ASCII letters only. *)
Definition lower_char (c : ascii) : ascii :=
  let n := N_of_ascii c in
  if ((65 <=? n) && (n <=? 90))%N then ascii_of_N (n + 32) else c.

Fixpoint lower (s : string) : string :=
  match s with
  | EmptyString => EmptyString
  | String c s' => String (lower_char c) (lower s')
  end.

(** [TRIM]: spaces off both ends. *)
Fixpoint ltrim (s : string) : string :=
  match s with
  | String c s' => if decide (c = " "%char) then ltrim s' else s
  | EmptyString => EmptyString
  end.

Definition trim (s : string) : string :=
  String.rev (ltrim (String.rev (ltrim s))).

Definition lower_trim (o : option string) : option string :=
  (λ s, lower (trim s)) <$> o.

(** [ROUND(x, 2)]: to hundredths, halves away from zero. *)
Definition round_half_away (q : Q) : Z :=
  if Qle_bool 0 q then Qfloor (q + (1 # 2)) else Qceiling (q - (1 # 2)).

Definition round2 (q : Q) : Q := Qred (round_half_away (q * 100) # 100).

(** *** The browse query *)

(** [LOWER(TRIM(col)) = LOWER(TRIM(:param))] as a WHERE condition; an
    absent predicate holds, a comparison with NULL does not. *)
Definition matches (pred : option (option string)) (cell : option string)
  : bool :=
  match pred with
  | None => true
  | Some bound =>
      match lower_trim cell, lower_trim bound with
      | Some a, Some b => bool_decide (a = b)
      | _, _ => false
      end
  end.

(** A row of [food_listings f LEFT JOIN providers p]. *)
Definition joined : Type := listing * option provider.

Definition left_join (fs : list listing) (ps : list provider)
  : list joined :=
  f ← fs;
  match filter (λ p, f_provider_id f = Some (provider_id p)) ps with
  | [] => [(f, None)]
  | ms => (λ p, (f, Some p)) <$> ms
  end.

Definition browse_where (loc prov ft : option (option string))
    (j : joined) : bool :=
  matches loc (f_location j.1) && matches prov (j.2 ≫= p_name)
  && matches ft (f_food_type j.1).

(** [COALESCE(f.expiry_date, '9999-12-31')] *)
Definition expiry_key (j : joined) : string :=
  default "9999-12-31" (f_expiry_date j.1).

(** Text compares bytewise under [ORDER BY ... ASC]. *)
Definition expiry_le (a b : joined) : Prop :=
  String.le (expiry_key a) (expiry_key b).

#[global] Instance expiry_le_dec : RelDecision expiry_le.
Proof. intros a b. unfold expiry_le. apply _. Defined.

Definition browse_rows (loc prov ft : option (option string)) (d : DB)
  : list joined :=
  merge_sort expiry_le
    (filter (λ j, browse_where loc prov ft j)
       (left_join (t_listings d) (t_providers d))).

Definition browse_columns : list string :=
  ["food_id"; "food_name"; "food_type"; "quantity"; "expiry_date";
   "location"; "provider_name"; "provider_contact"].

Definition browse_row (j : joined) : list value :=
  [VInt (food_id j.1); text_cell (f_food_name j.1);
   text_cell (f_food_type j.1); int_cell (f_quantity j.1);
   text_cell (f_expiry_date j.1); text_cell (f_location j.1);
   text_cell (j.2 ≫= p_name); text_cell (j.2 ≫= p_contact)].

Definition browse_frame (loc prov ft : option (option string)) (d : DB)
  : DataFrame :=
  mkDataFrame browse_columns (browse_row <$> browse_rows loc prov ft d).



(** The predicate a select box turns on: none at the sentinel. *)
Definition chosen (c : string) : option (option string) :=
  if decide (c = "All") then None else Some (Some c).


(** The text of the browse statement with the given predicates on. *)
Definition browse_text (bl bp bt : bool) : string :=
  base_q +:+ (if bl then loc_pred else "") +:+ (if bp then pname_pred else "")
  +:+ (if bt then ft_pred else "") +:+ order_by.

Definition browse_shapes : list (bool * bool * bool) :=
  [(false, false, false); (true, false, false); (false, true, false);
   (true, true, false); (false, false, true); (true, false, true);
   (false, true, true); (true, true, true)].

Definition browse_shape (q : string) : option (bool * bool * bool) :=
  find (λ s, bool_decide (q = browse_text s.1.1 s.1.2 s.2)) browse_shapes.

(** The value bound to a placeholder the statement uses. *)
Definition binding (on : bool) (name : string) (ps : option params)
  : string + option (option string) :=
  if on then
    match default ∅ ps !! name with
    | Some v =>
        match as_text v with
        | Some t => inr (Some t)
        | None => inl ("unsupported binding for parameter " +:+ name)
        end
    | None => inl ("A value is required for bind parameter " +:+ name)
    end
  else inr None.

(** *** Distinct values of a text column *)

Definition text_column (table column : string) (d : DB)
  : option (list (option string)) :=
  if decide ((table, column) = ("food_listings", "location"))
  then Some (f_location <$> t_listings d)
  else if decide ((table, column) = ("food_listings", "food_type"))
  then Some (f_food_type <$> t_listings d)
  else if decide ((table, column) = ("providers", "name"))
  then Some (p_name <$> t_providers d)
  else if decide ((table, column) = ("providers", "city"))
  then Some (p_city <$> t_providers d)
  else if decide ((table, column) = ("receivers", "city"))
  then Some (r_city <$> t_receivers d)
  else None.

Definition distinct_columns : list (string * string) :=
  [("food_listings", "location"); ("food_listings", "food_type");
   ("providers", "name"); ("providers", "city"); ("receivers", "city")].

Definition distinct_shape (q : string) : option (string * string) :=
  find (λ tc, bool_decide (q = distinct_q tc.1 tc.2)) distinct_columns.

Definition distinct_rows (cells : list (option string)) : list (list value) :=
  (λ s, [VText s]) <$> merge_sort String.le (remove_dups (omap id cells)).

(** *** Report Q11 *)

(** NULL sorts before text. *)
Definition status_le (a b : option string) : Prop :=
  match a, b with
  | None, _ => True
  | Some _, None => False
  | Some x, Some y => String.le x y
  end.

#[global] Instance status_le_dec : RelDecision status_le.
Proof. intros [a|] [b|]; simpl; apply _. Defined.

(** [COUNT] over the group of one status. *)
Definition status_count (s : option string) (cs : list claim) : nat :=
  length (filter (λ c, c_status c = s) cs).

(** [ROUND(100.0 * COUNT(...) / (SELECT COUNT(...) FROM claims), 2)] *)
Definition pct (cnt total : nat) : Q :=
  round2 (100 * inject_Z (Z.of_nat cnt) / inject_Z (Z.of_nat total)).

Definition Q11_rows (d : DB) : list (list value) :=
  let cs := t_claims d in
  (λ s, [text_cell s; VInt (Z.of_nat (status_count s cs));
         VReal (pct (status_count s cs) (length cs))])
  <$> merge_sort status_le (remove_dups (c_status <$> cs)).


(** *** Reads *)

Definition no_such_table (t : string) : string := "no such table: " +:+ t.

(** The first table of [ts] that the catalogue lacks. *)
Definition missing_table (ts : list string) (d : DB) : option string :=
  find (λ t, bool_decide (t ∉ catalog d)) ts.

Definition guarded {A} (ts : list string) (d : DB) (a : string + A)
  : string + A :=
  match missing_table ts d with
  | Some t => inl (no_such_table t)
  | None => a
  end.

Definition read_sql (q : string) (ps : option params) (d : DB)
  : string + DataFrame :=
  if decide (q = catalog_q)
  then inr (mkDataFrame ["name"] ((λ t, [VText t]) <$> catalog d))
  else if decide (q = Q11)
  then guarded ["claims"] d (inr (mkDataFrame ["status"; "cnt"; "pct"] (Q11_rows d)))
  else
    match browse_shape q with
    | Some (bl, bp, bt) =>
        guarded ["food_listings"; "providers"] d
          (match binding bl "loc" ps, binding bp "pname" ps,
                 binding bt "ft" ps with
           | inr loc, inr prov, inr ft => inr (browse_frame loc prov ft d)
           | inl e, _, _ | _, inl e, _ | _, _, inl e => inl e
           end)
    | None =>
        match distinct_shape q with
        | Some (t, c) =>
            guarded [t] d
              (match text_column t c d with
               | Some cells => inr (mkDataFrame ["val"] (distinct_rows cells))
               | None => inl "unsupported statement"
               end)
        | None => inl "unsupported statement"
        end
    end.

(** *** Writes *)

Definition get_text (ps : params) (name : string)
  : string + option string :=
  match ps !! name with
  | Some v =>
      match as_text v with
      | Some t => inr t
      | None => inl ("unsupported binding for parameter " +:+ name)
      end
  | None => inl ("A value is required for bind parameter " +:+ name)
  end.

Definition get_int (ps : params) (name : string) : string + option Z :=
  match ps !! name with
  | Some v =>
      match as_int v with
      | Some n => inr n
      | None => inl ("unsupported binding for parameter " +:+ name)
      end
  | None => inl ("A value is required for bind parameter " +:+ name)
  end.

(** The key an insert is given: one past the largest key in use. *)
Definition next_id (ids : list Z) : Z := (1 + foldr Z.max 0 ids)%Z.

Definition set_providers (ps : list provider) (d : DB) : DB :=
  mkDB (catalog d) ps (t_receivers d) (t_listings d) (t_claims d).
Definition set_receivers (rs : list receiver) (d : DB) : DB :=
  mkDB (catalog d) (t_providers d) rs (t_listings d) (t_claims d).
Definition set_listings (fs : list listing) (d : DB) : DB :=
  mkDB (catalog d) (t_providers d) (t_receivers d) fs (t_claims d).
Definition set_claims (cs : list claim) (d : DB) : DB :=
  mkDB (catalog d) (t_providers d) (t_receivers d) (t_listings d) cs.

Definition insert_provider (ps : params) (d : DB) : string + DB :=
  match get_text ps "name", get_text ps "type", get_text ps "address",
        get_text ps "city", get_text ps "contact" with
  | inr name, inr type_, inr address, inr city, inr contact =>
      inr (set_providers
             (t_providers d ++
              [mkProvider (next_id (provider_id <$> t_providers d))
                 name type_ address city contact]) d)
  | inl e, _, _, _, _ | _, inl e, _, _, _ | _, _, inl e, _, _
  | _, _, _, inl e, _ | _, _, _, _, inl e => inl e
  end.

Definition insert_listing (ps : params) (d : DB) : string + DB :=
  match get_int ps "pid", get_text ps "fname", get_text ps "ftype",
        get_int ps "qty", get_text ps "exp", get_text ps "loc" with
  | inr pid, inr fname, inr ftype, inr qty, inr exp, inr loc =>
      inr (set_listings
             (t_listings d ++
              [mkListing (next_id (food_id <$> t_listings d))
                 pid fname ftype None qty exp loc]) d)
  | inl e, _, _, _, _, _ | _, inl e, _, _, _, _ | _, _, inl e, _, _, _
  | _, _, _, inl e, _, _ | _, _, _, _, inl e, _ | _, _, _, _, _, inl e =>
      inl e
  end.

Definition insert_claim (ps : params) (d : DB) : string + DB :=
  match get_int ps "fid", get_int ps "rid", get_text ps "status",
        get_text ps "ts" with
  | inr fid, inr rid, inr st, inr ts =>
      inr (set_claims
             (t_claims d ++
              [mkClaim (next_id (claim_id <$> t_claims d)) fid rid st ts])
             d)
  | inl e, _, _, _ | _, inl e, _, _ | _, _, inl e, _ | _, _, _, inl e =>
      inl e
  end.

(** [DELETE FROM t WHERE id_col = :id]; a NULL id matches no row. *)
Definition delete_from (t : table) (ps : params) (d : DB) : string + DB :=
  match get_int ps "id" with
  | inr (Some n) =>
      inr match t with
          | providers =>
              set_providers (filter (λ p, provider_id p ≠ n) (t_providers d)) d
          | receivers =>
              set_receivers (filter (λ r, receiver_id r ≠ n) (t_receivers d)) d
          | food_listings =>
              set_listings (filter (λ f, food_id f ≠ n) (t_listings d)) d
          | claims =>
              set_claims (filter (λ c, claim_id c ≠ n) (t_claims d)) d
          end
  | inr None => inr d
  | inl e => inl e
  end.

Definition with_expiry (e : option string) (f : listing) : listing :=
  mkListing (food_id f) (f_provider_id f) (f_food_name f) (f_food_type f)
    (f_meal_type f) (f_quantity f) e (f_location f).

Definition with_contact (c : option string) (p : provider) : provider :=
  mkProvider (provider_id p) (p_name p) (p_type p) (p_address p)
    (p_city p) c.

(** [UPDATE food_listings SET expiry_date = :val WHERE food_id = :id] *)
Definition update_expiry (ps : params) (d : DB) : string + DB :=
  match get_text ps "val", get_int ps "id" with
  | inr v, inr id =>
      inr (set_listings
             ((λ f, if decide (Some (food_id f) = id)
                    then with_expiry v f else f) <$> t_listings d) d)
  | inl e, _ | _, inl e => inl e
  end.

(** [UPDATE providers SET contact = :val WHERE provider_id = :id] *)
Definition update_contact (ps : params) (d : DB) : string + DB :=
  match get_text ps "val", get_int ps "id" with
  | inr v, inr id =>
      inr (set_providers
             ((λ p, if decide (Some (provider_id p) = id)
                    then with_contact v p else p) <$> t_providers d) d)
  | inl e, _ | _, inl e => inl e
  end.

Definition delete_shape (q : string) : option table :=
  find (λ t, bool_decide (q = delete_q t))
    [providers; receivers; food_listings; claims].

(** The statement of a write and the tables it names. *)
Definition write_sql (q : string) (ps : params) (d : DB) : string + DB :=
  if decide (q = insert_provider_q)
  then guarded ["providers"] d (insert_provider ps d)
  else if decide (q = insert_listing_q)
  then guarded ["food_listings"] d (insert_listing ps d)
  else if decide (q = insert_claim_q)
  then guarded ["claims"] d (insert_claim ps d)
  else if decide (q = update_q food_listings "expiry_date")
  then guarded ["food_listings"] d (update_expiry ps d)
  else if decide (q = update_q providers "contact")
  then guarded ["providers"] d (update_contact ps d)
  else
    match delete_shape q with
    | Some t => guarded [table_name t] d (delete_from t ps d)
    | None => inl "unsupported statement"
    end.

(** A statement either takes effect as a whole or raises and leaves the
    connection where it was. *)
Definition exec_sql (q : string) (ps : params) (d : DB)
  : DB * option string :=
  match write_sql q ps d with
  | inr d' => (d', None)
  | inl e => (d, Some e)
  end.

(** No statement of the fragment puts a REAL cell in a column that the
    script converts with [str]; the conversion is left blank. *)
Definition float_repr (q : Q) : string := "".

End SQLite.

(** ** Sample stores and widget states *)
Module Samples.
Import SQLite.

Definition full_catalog : list string :=
  ["providers"; "receivers"; "food_listings"; "claims"].

(** All four tables, no rows. *)
Definition fresh_store : DB := mkDB full_catalog [] [] [] [].

(** A store created without the listing and claim tables. *)
Definition partial_store : DB := mkDB ["providers"; "receivers"] [] [] [] [].

Definition acme1 : provider :=
  mkProvider 1 (Some "Acme") (Some "Restaurant") None (Some "Springfield")
    (Some "555-0100").
Definition acme2 : provider :=
  mkProvider 2 (Some "Acme") (Some "Grocery") None (Some "Shelbyville")
    (Some "555-0199").
Definition bread : listing :=
  mkListing 10 (Some 1%Z) (Some "Bread") (Some "Bakery") None (Some 10%Z)
    (Some "2099-01-01T00:00:00") (Some "Springfield").
Definition soup : listing :=
  mkListing 11 (Some 2%Z) (Some "Soup") (Some "Canned") None (Some 5%Z)
    None (Some "Shelbyville").

(** Two providers of the same name, one listing each. *)
Definition acme_store : DB :=
  mkDB full_catalog [acme1; acme2] [] [soup; bread] [].

(** Nothing selected, nothing clicked. *)
Definition idle : inputs :=
  mkInputs "All" "All" "All" BrowseFilter "All" "All" providers None 1 "" ""
    false 1 false "Q1: Providers per city" None.


(** The bindings of a claim insert. *)
Definition claim_params (fid rid : Z) (st : status) (ts : string) : params :=
  <["ts" := VText ts]> (<["status" := VText (status_name st)]>
    (<["rid" := VInt rid]> {["fid" := VInt fid]})).

(** One claim completed, one pending, one without status. *)
Definition claims_store : DB :=
  mkDB full_catalog [] [] []
    [mkClaim 1 (Some 10%Z) (Some 1%Z) (Some "Completed") None;
     mkClaim 2 (Some 11%Z) (Some 1%Z) (Some "Pending") None;
     mkClaim 3 (Some 10%Z) (Some 2%Z) None None].


(** The report page on Q11. *)
Definition report_Q11 : inputs :=
  mkInputs "All" "All" "All" Reports "All" "All" providers None 1 "" ""
    false 1 false "Q11: Claim status distribution" None.

(** A store that cannot be opened: every statement raises. *)
Definition offline_read (q : string) (ps : option params) (d : unit)
  : string + DataFrame :=
  inl "unable to open database file".
Definition offline_exec (q : string) (ps : params) (d : unit)
  : unit * option string :=
  (d, Some "unable to open database file").

End Samples.

(** * Properties of the layer over any store *)
Section LayerFacts.

Context {DB : Type}.
Variable read_sql : string → option params → DB → string + DataFrame.
Variable exec_sql : string → params → DB → DB * option string.
Variable float_repr : Q → string.


Lemma fetch_df_hit q ps (w : world DB) e :
  cache_hit TTL (q, ps) (fetch_cache w) (now w) = Some e →
  fetch_df read_sql q ps w = (Ok (e_val e), set_out (out w ++ e_msgs e) w).
Proof. intros H. unfold fetch_df, cache_data. by rewrite H. Qed.

Lemma fetch_df_miss q ps (w : world DB) :
  cache_hit TTL (q, ps) (fetch_cache w) (now w) = None →
  fetch_df read_sql q ps w =
    (Ok (read_value read_sql q ps (db w)),
     mkWorld (db w) (now w)
       (memo_store (q, ps)
          (mkEntry (read_value read_sql q ps (db w))
             (read_msgs read_sql q ps (db w)) (now w))
          (fetch_cache w))
       (distinct_cache w) (tables_cache w)
       (out w ++ read_msgs read_sql q ps (db w))
       (store_log w ++ [mkIssued Read q ps])).
Proof.
  intros H. unfold fetch_df, cache_data. rewrite H.
  unfold fetch_df_body, read_value, read_msgs, record, read_store, emit.
  unfold mbind, M_bind, mret, M_ret. simpl.
  destruct (read_sql q ps (db w)); simpl; [|by rewrite app_nil_r].
  done.
Qed.


Lemma run_write_ok q ps (w : world DB) d' :
  exec_sql q (default ∅ ps) (db w) = (d', None) →
  run_write exec_sql q ps w =
    (Ok (),
     mkWorld d' (now w) [] [] (tables_cache w)
       (out w ++ [SuccessBox "Operation successful."])
       (store_log w ++ [mkIssued Write q (Some (default ∅ ps))])).
Proof.
  intros H. unfold run_write, record, exec_store, commit, emit,
    clear_fetch_df, clear_get_distinct_values.
  unfold mbind, M_bind. simpl. by rewrite H.
Qed.

Lemma run_write_fail q ps (w : world DB) d' e :
  exec_sql q (default ∅ ps) (db w) = (d', Some e) →
  run_write exec_sql q ps w =
    (Ok (),
     mkWorld (db w) (now w) (fetch_cache w) (distinct_cache w)
       (tables_cache w) (out w ++ [ErrorBox ("Write error: " +:+ e)])
       (store_log w ++ [mkIssued Write q (Some (default ∅ ps))])).
Proof.
  intros H. unfold run_write, record, exec_store, emit.
  unfold mbind, M_bind. simpl. by rewrite H.
Qed.


Lemma memo_lookup_store_eq {K A} `{EqDecision K} (k : K) (e : entry A) m :
  memo_lookup k (memo_store k e m) = Some e.
Proof. unfold memo_store. simpl. by rewrite decide_True. Qed.

Lemma memo_lookup_drop {K A} `{EqDecision K} (k k' : K) (m : memo K A) :
  k ≠ k' → memo_lookup k (filter (λ ke, ke.1 ≠ k') m) = memo_lookup k m.
Proof.
  intros Hne. induction m as [|[k0 e0] m IH]; [done|].
  rewrite filter_cons. simpl. destruct (decide (k0 ≠ k')) as [Hk|Hk]; simpl.
  - by rewrite IH.
  - rewrite IH. apply dec_stable in Hk. subst k0. by rewrite decide_False.
Qed.

Lemma memo_lookup_store_ne {K A} `{EqDecision K} (k k' : K) (e : entry A) m :
  k ≠ k' → memo_lookup k (memo_store k' e m) = memo_lookup k m.
Proof.
  intros Hne. unfold memo_store. simpl. rewrite decide_False by done.
  by apply memo_lookup_drop.
Qed.

Lemma kept_hit k e (w : world DB) : kept k e w → cache_hit TTL k (fetch_cache w) (now w) = Some e.
Proof.
  intros [Hl Ht]. unfold cache_hit. rewrite Hl. simpl.
  unfold live. by rewrite bool_decide_eq_true_2.
Qed.

Lemma kept_set_out k e (w : world DB) o : kept k e w → kept k e (set_out o w).
Proof. done. Qed.

Lemma fetch_df_kept k e q ps (w : world DB) : kept k e w → kept k e (fetch_df read_sql q ps w).2.
Proof.
  intros Hk.
  destruct (cache_hit TTL (q, ps) (fetch_cache w) (now w)) as [e'|] eqn:Hc.
  - rewrite (fetch_df_hit _ _ _ _ Hc). done.
  - rewrite (fetch_df_miss _ _ _ Hc). destruct Hk as [Hl Ht]. split; [|done].
    cbn -[memo_store]. rewrite memo_lookup_store_ne; [done|].
    intros ->. rewrite (kept_hit _ _ _ (conj Hl Ht)) in Hc. done.
Qed.

Lemma bind_preserves {A B} (P : world DB → Prop) (m : M DB A) (f : A → M DB B) w :
  P (m w).2 → (∀ a w', P w' → P (f a w').2) → P ((m ≫= f) w).2.
Proof.
  intros Hm Hf. unfold mbind, M_bind. destruct (m w) as [[a|x] w']; simpl in *; auto.
Qed.

Lemma cache_data_preserves {K A} `{EqDecision K} (P : world DB → Prop)
    (get : world DB → memo K A) set ttl (k : K) (body : M DB A) w :
  (∀ w o, P w → P (set_out o w)) →
  (∀ w m, P w → P (set m w)) →
  (∀ w, P w → P (body w).2) →
  P w → P (cache_data get set ttl k body w).2.
Proof.
  intros Hout Hset Hbody Hw. unfold cache_data.
  destruct (cache_hit ttl k (get w) (now w)); simpl; [by apply Hout|].
  specialize (Hbody (set_out [] w) (Hout _ _ Hw)).
  destruct (body (set_out [] w)) as [[a|x] w']; simpl in *; auto.
Qed.

Lemma getitem_state df c (w : world DB) : (getitem df c w).2 = w.
Proof. unfold getitem. by destruct (column_values c df). Qed.

Lemma get_distinct_values_kept k e t c (w : world DB) :
  kept k e w → kept k e (get_distinct_values read_sql float_repr t c w).2.
Proof.
  intros Hk. unfold get_distinct_values.
  apply (cache_data_preserves (kept k e)); try done.
  intros w' Hw'. unfold get_distinct_values_body.
  apply (bind_preserves (kept k e)); [by apply fetch_df_kept|].
  intros df w'' Hw''. apply (bind_preserves (kept k e)).
  - by rewrite getitem_state.
  - done.
Qed.

Lemma tables_present_kept k e (w : world DB) :
  kept k e w → kept k e (tables_present read_sql w).2.
Proof.
  intros Hk. unfold tables_present.
  apply (cache_data_preserves (kept k e)); try done.
  intros w' Hw'. unfold tables_present_body.
  apply (bind_preserves (kept k e)); [by apply fetch_df_kept|].
  intros df w'' Hw''. apply (bind_preserves (kept k e)).
  - by rewrite getitem_state.
  - done.
Qed.

Lemma run_ops_kept k e os (w : world DB) :
  kept k e w →
  quiet read_sql exec_sql float_repr (e_time e + TTL) os w = true →
  kept k e (run_ops read_sql exec_sql float_repr os w).
Proof.
  revert w. induction os as [|o os IH]; intros w Hk Hq; [done|].
  simpl in Hq. apply andb_true_iff in Hq as [Ho Hq].
  unfold run_ops. simpl. apply IH; [|done].
  destruct o as [q ps|t c| |q ps|t]; simpl.
  - by apply fetch_df_kept.
  - by apply get_distinct_values_kept.
  - by apply tables_present_kept.
  - destruct (exec_sql q (default ∅ ps) (db w)) as [d' [err|]] eqn:He;
      [|done].
    rewrite (run_write_fail _ _ _ _ _ He). done.
  - apply bool_decide_eq_true_1 in Ho. destruct Hk as [Hl _]. done.
Qed.



Lemma bind_ok {A B} (m : M DB A) (f : A → M DB B) w a w' :
  m w = (Ok a, w') → (m ≫= f) w = f a w'.
Proof. intros H. unfold mbind, M_bind. by rewrite H. Qed.

Lemma fetch_df_ok q ps (w : world DB) :
  ∃ df w', fetch_df read_sql q ps w = (Ok df, w') ∧ db w' = db w ∧ now w' = now w.
Proof.
  destruct (cache_hit TTL (q, ps) (fetch_cache w) (now w)) as [e|] eqn:Hc.
  - rewrite (fetch_df_hit _ _ _ _ Hc). by eexists _, _.
  - rewrite (fetch_df_miss _ _ _ Hc). by eexists _, _.
Qed.

Lemma fetch_df_entry q ps (w : world DB) :
  ∃ e, kept (q, ps) e (fetch_df read_sql q ps w).2
       ∧ (fetch_df read_sql q ps w).1 = Ok (e_val e)
       ∧ (cache_hit TTL (q, ps) (fetch_cache w) (now w) = None →
          e_time e = now w).
Proof.
  destruct (cache_hit TTL (q, ps) (fetch_cache w) (now w)) as [e|] eqn:Hc.
  - rewrite (fetch_df_hit _ _ _ _ Hc). exists e. split; [|done].
    unfold cache_hit in Hc. destruct (memo_lookup _ _) as [e'|] eqn:Hl; [|done].
    simpl in Hc. destruct (live TTL (now w) e') eqn:Hlive; [|done].
    simplify_eq. split; [done|]. by apply bool_decide_eq_true_1 in Hlive.
  - rewrite (fetch_df_miss _ _ _ Hc).
    exists (mkEntry (read_value read_sql q ps (db w))
              (read_msgs read_sql q ps (db w)) (now w)).
    split; [|done].
    split; [cbn -[memo_store]; apply memo_lookup_store_eq|].
    cbn. unfold TTL. lia.
Qed.


(** C7.  After a read, its (statement, bindings) pair has an entry in the
    memo holding the frame that was returned, stamped with the time of
    the read when the statement was executed.  Any repetition of the same
    pair before [e_time + 60], after any sequence of other reads, derived
    reads, failed writes and clock moves, returns that same frame and
    hands nothing to the store.  An entry that is 60 or more time units
    old counts as absent: the statement is executed again. *)
Theorem cached_read_repeats q ps (w0 : world DB) :
  let first := fetch_df read_sql q ps w0 in
  ∃ e, memo_lookup (q, ps) (fetch_cache first.2) = Some e
    ∧ first.1 = Ok (e_val e)
    ∧ (cache_hit 60 (q, ps) (fetch_cache w0) (now w0) = None →
       e_time e = now w0)
    ∧ (∀ os t,
         quiet read_sql exec_sql float_repr (e_time e + 60) os first.2 = true →
         (t < e_time e + 60)%nat →
         let w := set_now t (run_ops read_sql exec_sql float_repr os first.2) in
         (fetch_df read_sql q ps w).1 = first.1
         ∧ store_log (fetch_df read_sql q ps w).2 = store_log w)
    ∧ (∀ w e', memo_lookup (q, ps) (fetch_cache w) = Some e' →
         (e_time e' + 60 ≤ now w)%nat →
         (fetch_df read_sql q ps w).1 = Ok (read_value read_sql q ps (db w))
         ∧ store_log (fetch_df read_sql q ps w).2
           = store_log w ++ [mkIssued Read q ps]).
Proof.
  intros first. destruct (fetch_df_entry q ps w0) as (e & Hk & Hv & Ht).
  fold first in Hk, Hv. exists e. split_and!; [by destruct Hk|done|done|..].
  - intros os t Hq Hlt w.
    pose proof (run_ops_kept _ _ _ _ Hk Hq) as [Hl _].
    assert (kept (q, ps) e w) as Hw by (split; [done|exact Hlt]).
    rewrite (fetch_df_hit _ _ _ _ (kept_hit _ _ _ Hw)). by rewrite Hv.
  - intros w e' Hl Hold.
    assert (cache_hit TTL (q, ps) (fetch_cache w) (now w) = None) as Hc.
    { unfold cache_hit. rewrite Hl. simpl. unfold live.
      rewrite bool_decide_eq_false_2; [done|]. unfold TTL. lia. }
    by rewrite (fetch_df_miss _ _ _ Hc).
Qed.





Lemma elem_of_text_set x names : x ∈ text_set names ↔ VText x ∈ names.
Proof.
  unfold text_set. rewrite elem_of_list_to_set, list_elem_of_omap. split.
  - intros (v & Hv & Hx). destruct v; simplify_eq. done.
  - intros H. by exists (VText x).
Qed.

Lemma elem_of_sorted x (s : gset string) : x ∈ sorted s ↔ x ∈ s.
Proof. unfold sorted. by rewrite merge_sort_Permutation, elem_of_elements. Qed.

Lemma NoDup_sorted (s : gset string) : NoDup (sorted s).
Proof. unfold sorted. rewrite merge_sort_Permutation. apply NoDup_elements. Qed.

Lemma elem_of_REQUIRED_TABLES x :
  x ∈ REQUIRED_TABLES
  ↔ x ∈ ["providers"; "receivers"; "food_listings"; "claims"].
Proof. unfold REQUIRED_TABLES. set_solver. Qed.

Lemma tables_present_first (w : world DB) df names :
  fetch_cache w = [] → tables_cache w = [] →
  read_sql catalog_q None (db w) = inr df →
  column_values "name" df = Some names →
  ∃ w', tables_present read_sql w = (Ok (text_set names), w')
      ∧ out w' = out w
      ∧ store_log w' = store_log w ++ [mkIssued Read catalog_q None].
Proof.
  intros Hf Ht Hr Hc. unfold tables_present, cache_data. rewrite Ht. simpl.
  unfold tables_present_body.
  erewrite bind_ok; [|apply fetch_df_miss; simpl; by rewrite Hf].
  unfold read_value, read_msgs. simpl. rewrite Hr.
  unfold getitem. rewrite Hc.
  erewrite bind_ok; [|reflexivity]. unfold mret, M_ret. simpl.
  eexists. split_and!; [done|by rewrite !app_nil_r|done].
Qed.

(** C6.  At start-up, with the catalogue read answering [names]: if a
    required table is missing the run shows the title and one warning,
    whose text lists exactly the missing required tables in sorted order
    and without repetition, and stops there, having issued the catalogue
    read only; if all four are present no warning is shown and the run
    goes on with the sidebar and the selected page. *)
Theorem startup_table_check i (d : DB) t df names :
  read_sql catalog_q None d = inr df →
  column_values "name" df = Some names →
  let missing := REQUIRED_TABLES ∖ text_set names in
  (missing ≠ ∅ →
     ∃ w', app read_sql exec_sql float_repr i (startup d t)
           = (Raise StopException, w')
       ∧ out w'
         = [Title "Local Food Wastage Management System";
            WarningBox ("⚠️ Some required tables are missing: "
                        +:+ String.concat ", " (sorted missing))]
       ∧ store_log w' = [mkIssued Read catalog_q None])
  ∧ (missing = ∅ →
     ∃ w1, app read_sql exec_sql float_repr i (startup d t)
           = (sidebar read_sql float_repr;;
              match mode_choice i with
              | BrowseFilter => browse_page read_sql i
              | ContactDirectory => contact_page read_sql float_repr i
              | CRUDOperations => crud_page read_sql exec_sql i
              | Reports => reports_page read_sql float_repr i
              end) w1
       ∧ out w1 = [Title "Local Food Wastage Management System"]
       ∧ store_log w1 = [mkIssued Read catalog_q None])
  ∧ (∀ x, x ∈ sorted missing
          ↔ x ∈ ["providers"; "receivers"; "food_listings"; "claims"]
            ∧ VText x ∉ names)
  ∧ NoDup (sorted missing)
  ∧ (missing = ∅
     ↔ ∀ x, x ∈ ["providers"; "receivers"; "food_listings"; "claims"] →
            VText x ∈ names).
Proof.
  intros Hr Hc missing.
  destruct (tables_present_first
              (set_out [Title "Local Food Wastage Management System"]
                 (startup d t)) df names)
    as (w1 & Htp & Hout & Hlog); [done..|].
  assert (∀ x, x ∈ missing
               ↔ x ∈ ["providers"; "receivers"; "food_listings"; "claims"]
                 ∧ VText x ∉ names) as Hmiss.
  { intros x. unfold missing.
    by rewrite elem_of_difference, elem_of_REQUIRED_TABLES, elem_of_text_set. }
  split_and!.
  - intros Hne. unfold app.
    erewrite bind_ok; [|reflexivity]. unfold check_tables.
    unfold mbind at 1, M_bind at 1.
    erewrite bind_ok; [|exact Htp].
    fold missing. rewrite decide_True by done.
    unfold emit, raise, mbind, M_bind. simpl.
    eexists. split_and!; [done| |done]. simpl. by rewrite Hout.
  - intros He. unfold app.
    erewrite bind_ok; [|reflexivity].
    erewrite bind_ok.
    + exists w1. split_and!; [reflexivity|done|done].
    + unfold check_tables. erewrite bind_ok; [|exact Htp].
      fold missing. rewrite decide_False; [done|]. by intros ?.
  - intros x. by rewrite elem_of_sorted.
  - apply NoDup_sorted.
  - split.
    + intros He x Hx. destruct (decide (VText x ∈ names)) as [|Hn]; [done|].
      assert (x ∈ missing) as Hin by (by apply Hmiss).
      rewrite He in Hin. by apply not_elem_of_empty in Hin.
    + intros Hall. apply set_eq. intros x. rewrite Hmiss. split.
      * intros [Hx Hn]. destruct Hn. by apply Hall.
      * intros Hx. by apply not_elem_of_empty in Hx.
Qed.



End LayerFacts.

(** * Properties over the SQLite fragment *)
Section SQLiteFacts.

Import SQLite.

Lemma guarded_present {A} ts d (a : string + A) :
  (∀ t, t ∈ ts → t ∈ catalog d) → guarded ts d a = a.
Proof.
  intros H. unfold guarded, missing_table.
  destruct (find _ ts) as [t|] eqn:Hf; [|done].
  apply find_some in Hf as [Hin Hb].
  apply bool_decide_eq_true_1 in Hb. destruct Hb. apply H.
  by apply list_elem_of_In.
Qed.

Lemma read_browse loc prov ft d :
  "food_listings" ∈ catalog d → "providers" ∈ catalog d →
  read_sql (browse_query loc prov ft).1 (Some (browse_query loc prov ft).2) d
  = inr (browse_frame (chosen loc) (chosen prov) (chosen ft) d).
Proof.
  intros Hf Hp. unfold read_sql, browse_query, add_filter, chosen.
  destruct (decide (loc = "All")) as [Hl|Hl],
           (decide (prov = "All")) as [Hpv|Hpv],
           (decide (ft = "All")) as [Ht|Ht];
    rewrite ?(decide_True (P := loc ≠ "All")), ?(decide_False (P := loc ≠ "All")),
      ?(decide_True (P := prov ≠ "All")), ?(decide_False (P := prov ≠ "All")),
      ?(decide_True (P := ft ≠ "All")), ?(decide_False (P := ft ≠ "All"))
      by (done || by intros ?);
    cbn [fst snd];
    (rewrite decide_False by (intros H; by vm_compute in H));
    (rewrite decide_False by (intros H; by vm_compute in H));
    match goal with
    | |- context [browse_shape ?q] =>
        let s := eval vm_compute in (browse_shape q) in
        change (browse_shape q) with s
    end; cbv iota beta;
    (rewrite guarded_present
       by (intros t; rewrite !elem_of_cons, elem_of_nil; naive_solver));
    unfold binding; cbn [default];
    rewrite ?lookup_insert_eq, ?lookup_insert_ne, ?lookup_insert_eq by done;
    done.
Qed.


#[local] Instance expiry_le_trans : Transitive expiry_le.
Proof. intros a b c. unfold expiry_le. apply transitivity. Qed.
#[local] Instance expiry_le_total : Total expiry_le.
Proof. intros a b. unfold expiry_le. apply total, _. Qed.







Lemma elem_of_browse_rows j loc prov ft d :
  j ∈ browse_rows loc prov ft d
  ↔ browse_where loc prov ft j = true
    ∧ j ∈ left_join (t_listings d) (t_providers d).
Proof.
  unfold browse_rows. rewrite merge_sort_Permutation, list_elem_of_filter.
  by rewrite Is_true_true.
Qed.



Lemma matches_None c : matches None c = true.
Proof. done. Qed.

Lemma browse_where_drop_loc loc prov ft j :
  browse_where loc prov ft j = true → browse_where None prov ft j = true.
Proof. unfold browse_where. rewrite !andb_true_iff. naive_solver. Qed.
Lemma browse_where_drop_prov loc prov ft j :
  browse_where loc prov ft j = true → browse_where loc None ft j = true.
Proof. unfold browse_where. rewrite !andb_true_iff. naive_solver. Qed.
Lemma browse_where_drop_ft loc prov ft j :
  browse_where loc prov ft j = true → browse_where loc prov None j = true.
Proof. unfold browse_where. rewrite !andb_true_iff. naive_solver. Qed.

Lemma browse_frame_mono loc prov ft loc' prov' ft' d :
  (∀ j, browse_where loc prov ft j = true →
        browse_where loc' prov' ft' j = true) →
  rows (browse_frame loc prov ft d) ⊆ rows (browse_frame loc' prov' ft' d).
Proof.
  intros H r. unfold browse_frame. simpl. rewrite !list_elem_of_fmap.
  intros (j & -> & Hj). exists j. split; [done|].
  apply elem_of_browse_rows in Hj as [Hw Hj].
  apply elem_of_browse_rows. auto.
Qed.

Lemma chosen_All : chosen "All" = None.
Proof. done. Qed.

Lemma elem_of_browse_selections s loc prov ft :
  s ∈ browse_selections loc prov ft →
  s = mkSelection "f.location" "loc" loc
  ∨ s = mkSelection "p.name" "pname" prov
  ∨ s = mkSelection "f.food_type" "ft" ft.
Proof.
  unfold browse_selections. rewrite !elem_of_cons, elem_of_nil. tauto.
Qed.

(** C4.  The browse statement is the base text, then for each filter not
    left at "All" one predicate LOWER(TRIM(column)) = LOWER(TRIM(:param))
    introduced by AND, then the ORDER BY clause; the bindings map the
    placeholder of each such filter to the chosen value and hold nothing
    else.  A filter at "All" puts no predicate in the text and no
    binding in the map, and setting a filter to "All" never removes a
    row from the result. *)
Theorem browse_query_predicates loc prov ft :
  let sels := browse_selections loc prov ft in
  let q := (browse_query loc prov ft).1 in
  let ps := (browse_query loc prov ft).2 in
  q = base_q +:+ where_clause sels +:+ order_by
  ∧ ps = bindings sels
  ∧ (∀ s, s ∈ sels →
       if decide (s_choice s = "All")
       then occurrences (predicate (s_column s) (s_param s)) q = 0%nat
            ∧ ps !! s_param s = None
       else occurrences (predicate (s_column s) (s_param s)) q = 1%nat
            ∧ ps !! s_param s = Some (VText (s_choice s)))
  ∧ occurrences " AND " q = length (active sels)
  ∧ occurrences "LOWER(TRIM(:" q = length (active sels)
  ∧ (∀ d df,
       "food_listings" ∈ catalog d → "providers" ∈ catalog d →
       read_sql q (Some ps) d = inr df →
       (∀ df', read_sql (browse_query "All" prov ft).1
                 (Some (browse_query "All" prov ft).2) d = inr df' →
               rows df ⊆ rows df')
       ∧ (∀ df', read_sql (browse_query loc "All" ft).1
                   (Some (browse_query loc "All" ft).2) d = inr df' →
                 rows df ⊆ rows df')
       ∧ (∀ df', read_sql (browse_query loc prov "All").1
                   (Some (browse_query loc prov "All").2) d = inr df' →
                 rows df ⊆ rows df')).
Proof.
  intros sels q ps.
  assert (q = base_q +:+ where_clause sels +:+ order_by
          ∧ ps = bindings sels
          ∧ (∀ s, s ∈ sels →
               if decide (s_choice s = "All")
               then occurrences (predicate (s_column s) (s_param s)) q = 0%nat
                    ∧ ps !! s_param s = None
               else occurrences (predicate (s_column s) (s_param s)) q = 1%nat
                    ∧ ps !! s_param s = Some (VText (s_choice s)))
          ∧ occurrences " AND " q = length (active sels)
          ∧ occurrences "LOWER(TRIM(:" q = length (active sels)) as Hsyn.
  { unfold q, ps, sels, browse_query, add_filter, where_clause, bindings,
      active, browse_selections.
    destruct (decide (loc = "All")) as [->|Hl],
             (decide (prov = "All")) as [->|Hp],
             (decide (ft = "All")) as [->|Hf];
      rewrite ?(decide_False (P := "All" ≠ "All")) by (by intros H);
      rewrite ?(decide_True (P := loc ≠ "All")),
        ?(decide_True (P := prov ≠ "All")),
        ?(decide_True (P := ft ≠ "All")) by done;
      repeat (first [rewrite filter_cons_True by (simpl; done)
                    |rewrite filter_cons_False by (simpl; by intros H)]);
      rewrite filter_nil;
      cbn [fst snd fmap list_fmap s_column s_param s_choice list_to_map foldr
           length];
      (split; [vm_compute; reflexivity|]);
      (split; [apply map_eq; intros k;
               rewrite ?lookup_insert, ?lookup_empty;
               repeat case_decide; simplify_eq; done|]);
      (split; [|split; vm_compute; reflexivity]);
      intros s [-> | [-> | ->]]%elem_of_browse_selections;
      cbn [s_column s_param s_choice];
      rewrite ?(decide_True (P := "All" = "All")) by done;
      rewrite ?(decide_False (P := loc = "All")),
        ?(decide_False (P := prov = "All")),
        ?(decide_False (P := ft = "All")) by done;
      (split; [vm_compute; reflexivity|]);
      rewrite ?lookup_insert, ?lookup_empty;
      repeat case_decide; simplify_eq; done. }
  destruct Hsyn as (H1 & H2 & H3 & H4 & H5). split_and!; try done.
  intros d df Hf Hp. unfold q, ps. rewrite read_browse by done.
  intros [= <-]. split_and!; intros df'; rewrite read_browse by done;
    intros [= <-]; rewrite chosen_All; apply browse_frame_mono; intros j.
  - apply browse_where_drop_loc.
  - apply browse_where_drop_prov.
  - apply browse_where_drop_ft.
Qed.









End SQLiteFacts.

(** * The scenarios of the specification, and concrete runs *)
Section Scenarios.
Import SQLite Samples.











(** C7 on the catalogue read, repeated 59 units later. *)
Lemma cached_read_repeats_witness :
  let w1 := (fetch_df read_sql catalog_q None (startup fresh_store 0)).2 in
  let os := [OTick 10; OFetch Q11 None; ODistinct "providers" "city";
             OWrite "DROP TABLE claims" None; OTick 59] in
  let w := set_now 59 (run_ops read_sql exec_sql float_repr os w1) in
  (fetch_df read_sql catalog_q None w).1
  = (fetch_df read_sql catalog_q None (startup fresh_store 0)).1
  ∧ store_log (fetch_df read_sql catalog_q None w).2 = store_log w.
Proof.
  intros w1 os w.
  destruct (cached_read_repeats read_sql exec_sql float_repr catalog_q None
              (startup fresh_store 0)) as (e & _ & _ & Ht & Hrep & _).
  specialize (Ht eq_refl).
  apply (Hrep os 59%nat).
  - rewrite Ht. by vm_compute.
  - rewrite Ht. cbn. lia.
Defined.





(** C6 on the partial and on the fresh store. *)
Lemma startup_table_check_witness :
  (∃ w', app read_sql exec_sql float_repr idle (startup partial_store 0)
         = (Raise StopException, w')
     ∧ out w'
       = [Title "Local Food Wastage Management System";
          WarningBox "⚠️ Some required tables are missing: claims, food_listings"]
     ∧ store_log w' = [mkIssued Read catalog_q None])
  ∧ (∃ w1, app read_sql exec_sql float_repr idle (startup fresh_store 0)
           = (sidebar read_sql float_repr;; browse_page read_sql idle) w1
       ∧ out w1 = [Title "Local Food Wastage Management System"]).
Proof.
  split.
  - destruct (startup_table_check read_sql exec_sql float_repr idle
                partial_store 0
                (mkDataFrame ["name"] [[VText "providers"]; [VText "receivers"]])
                [VText "providers"; VText "receivers"] eq_refl eq_refl)
      as (H & _).
    apply H. compute_done.
  - destruct (startup_table_check read_sql exec_sql float_repr idle
                fresh_store 0
                (mkDataFrame ["name"]
                   [[VText "providers"]; [VText "receivers"];
                    [VText "food_listings"]; [VText "claims"]])
                [VText "providers"; VText "receivers"; VText "food_listings";
                 VText "claims"] eq_refl eq_refl)
      as (_ & H & _).
    destruct H as (w1 & Happ & Hout & _); [compute_done|].
    exists w1. split; [exact Happ|exact Hout].
Defined.

(** C4 with two filters set. *)
Lemma browse_query_predicates_witness :
  (browse_query "Springfield" "All" "Bakery").1
  = base_q +:+ " AND LOWER(TRIM(f.location)) = LOWER(TRIM(:loc))"
    +:+ " AND LOWER(TRIM(f.food_type)) = LOWER(TRIM(:ft))" +:+ order_by
  ∧ rows (browse_frame (Some (Some "Springfield")) None (Some (Some "Bakery"))
            acme_store)
    ⊆ rows (browse_frame None None (Some (Some "Bakery")) acme_store).
Proof.
  destruct (browse_query_predicates "Springfield" "All" "Bakery")
    as (Hq & _ & _ & _ & _ & Hsem).
  split; [exact Hq|].
  destruct (Hsem acme_store
              (browse_frame (Some (Some "Springfield")) None
                 (Some (Some "Bakery")) acme_store)) as (H & _ & _);
    [compute_done|compute_done|by vm_compute|].
  apply H. by vm_compute.
Defined.





End Scenarios.

(** * Further properties of the layer over any store *)
Section LayerExtras.


Context {DB : Type}.
Variable read_sql : string → option params → DB → string + DataFrame.
Variable exec_sql : string → params → DB → DB * option string.
Variable float_repr : Q → string.

Lemma cache_data_miss {K A} `{EqDecision K} (get : world DB → memo K A) set
    ttl (k : K) (body : M DB A) (w : world DB) :
  cache_hit ttl k (get w) (now w) = None →
  cache_data get set ttl k body w
  = match body (set_out [] w) with
    | (Ok a, w') =>
        (Ok a,
         set_out (out w ++ out w')
           (set (memo_store k (mkEntry a (out w') (now w')) (get w')) w'))
    | (Raise x, w') => (Raise x, set_out (out w ++ out w') w')
    end.
Proof. intros H. unfold cache_data. by rewrite H. Qed.

Lemma cache_data_hit {K A} `{EqDecision K} (get : world DB → memo K A) set
    ttl (k : K) (body : M DB A) (w : world DB) e :
  cache_hit ttl k (get w) (now w) = Some e →
  cache_data get set ttl k body w
  = (Ok (e_val e), set_out (out w ++ e_msgs e) w).
Proof. intros H. unfold cache_data. by rewrite H. Qed.

Lemma cache_hit_live {K A} `{EqDecision K} ttl (k : K) (m : memo K A) e
    (t : nat) :
  memo_lookup k m = Some e → (t < e_time e + ttl)%nat →
  cache_hit ttl k m t = Some e.
Proof.
  intros Hl Ht. unfold cache_hit. rewrite Hl. cbn. unfold live.
  by rewrite bool_decide_eq_true_2.
Qed.



Lemma bind_raise {A B} (m : M DB A) (f : A → M DB B) w x w' :
  m w = (Raise x, w') → (m ≫= f) w = (Raise x, w').
Proof. intros H. unfold mbind, M_bind. by rewrite H. Qed.

(** X2.  When the catalogue read fails at start-up, the run does not reach
    the missing-table warning: it shows the title and the error box and
    ends with [KeyError] on the "name" label of the empty frame. *)
Theorem app_raises_when_catalogue_read_fails i (d : DB) t e :
  read_sql catalog_q None d = inl e →
  ∃ w', app read_sql exec_sql float_repr i (startup d t)
        = (Raise (KeyError "name"), w')
    ∧ out w' = [Title "Local Food Wastage Management System";
                ErrorBox ("SQL error: " +:+ e)]
    ∧ tables_cache w' = []
    ∧ store_log w' = [mkIssued Read catalog_q None].
Proof.
  intros Hr.
  assert (tables_present read_sql
            (set_out [Title "Local Food Wastage Management System"]
               (startup d t))
          = (Raise (KeyError "name"),
             mkWorld d t
               [((catalog_q, None),
                 mkEntry empty_frame [ErrorBox ("SQL error: " +:+ e)] t)]
               [] []
               [Title "Local Food Wastage Management System";
                ErrorBox ("SQL error: " +:+ e)]
               [mkIssued Read catalog_q None])) as Htp.
  { unfold tables_present. rewrite cache_data_miss by done.
    unfold tables_present_body.
    erewrite bind_ok; [|by apply fetch_df_miss].
    unfold read_value, read_msgs. cbn [db set_out startup]. rewrite Hr.
    reflexivity. }
  unfold app. erewrite bind_ok; [|reflexivity].
  erewrite bind_raise; [|unfold check_tables; erewrite bind_raise; [reflexivity|exact Htp]].
  eexists. split; [reflexivity|]. done.
Qed.

Lemma tables_present_first_memo (w : world DB) df names :
  fetch_cache w = [] → tables_cache w = [] →
  read_sql catalog_q None (db w) = inr df →
  column_values "name" df = Some names →
  tables_present read_sql w
  = (Ok (text_set names),
     mkWorld (db w) (now w)
       [((catalog_q, None), mkEntry df [] (now w))]
       (distinct_cache w)
       [((), mkEntry (text_set names) [] (now w))]
       (out w) (store_log w ++ [mkIssued Read catalog_q None])).
Proof.
  intros Hf Ht Hr Hc. unfold tables_present.
  rewrite cache_data_miss by (by rewrite Ht).
  unfold tables_present_body.
  erewrite bind_ok; [|apply fetch_df_miss; cbn; by rewrite Hf].
  unfold read_value, read_msgs. cbn [db set_out]. rewrite Hr.
  unfold getitem. rewrite Hc. cbn. rewrite Hf, Ht. unfold memo_store. cbn.
  unfold mbind, M_bind, mret, M_ret. cbn. by rewrite ?app_nil_r.
Qed.

Lemma check_tables_hit (w : world DB) e :
  cache_hit TTL () (tables_cache w) (now w) = Some e →
  REQUIRED_TABLES ∖ e_val e = ∅ →
  check_tables read_sql w = (Ok (), set_out (out w ++ e_msgs e) w).
Proof.
  intros Hh He. unfold check_tables.
  erewrite bind_ok; [|by apply cache_data_hit].
  rewrite decide_False; [done|]. by intros ?.
Qed.

(** X3.  Once the table check has passed, for 60 time units it passes
    again from its memo without any read and with nothing shown, after
    any write and whatever the store has become in the meantime. *)
Theorem table_check_is_not_repeated (d : DB) t df names q ps d' t' :
  read_sql catalog_q None d = inr df →
  column_values "name" df = Some names →
  REQUIRED_TABLES ∖ text_set names = ∅ →
  (t' < t + 60)%nat →
  let w1 := (check_tables read_sql (startup d t)).2 in
  let w2 := set_now t' (set_db d' (run_write exec_sql q ps w1).2) in
  check_tables read_sql w2 = (Ok (), w2).
Proof.
  intros Hr Hc He Ht w1 w2.
  assert (w1 = mkWorld d t [((catalog_q, None), mkEntry df [] t)] []
                 [((), mkEntry (text_set names) [] t)] []
                 [mkIssued Read catalog_q None]) as Hw1.
  { unfold w1, check_tables.
    erewrite bind_ok; [|by apply tables_present_first_memo].
    rewrite decide_False; [done|]. by intros ?. }
  assert (tables_cache w2 = [((), mkEntry (text_set names) [] t)]
          ∧ now w2 = t') as [Htc Hn].
  { unfold w2.
    destruct (exec_sql q (default ∅ ps) (db w1)) as [d2 [err|]] eqn:Hx.
    - rewrite (run_write_fail _ _ _ _ _ _ Hx). by rewrite Hw1.
    - rewrite (run_write_ok _ _ _ _ _ Hx). by rewrite Hw1. }
  rewrite (check_tables_hit w2 (mkEntry (text_set names) [] t)).
  - clear Htc Hn. clearbody w2. destruct w2. cbn. by rewrite app_nil_r.
  - rewrite Htc, Hn. apply cache_hit_live; [done|]. cbn. unfold TTL. lia.
  - done.
Qed.

Lemma fetch_df_unwritten d l q ps (w : world DB) :
  unwritten d l w → unwritten d l (fetch_df read_sql q ps w).2.
Proof.
  intros [Hd Hl].
  destruct (cache_hit TTL (q, ps) (fetch_cache w) (now w)) as [e|] eqn:Hc.
  - by rewrite (fetch_df_hit _ _ _ _ _ Hc).
  - rewrite (fetch_df_miss _ _ _ _ Hc). split; [done|]. cbn.
    unfold writes_of. rewrite filter_app, filter_cons_False by (by cbn).
    by rewrite filter_nil, app_nil_r.
Qed.

Lemma get_distinct_values_unwritten d l t c (w : world DB) :
  unwritten d l w →
  unwritten d l (get_distinct_values read_sql float_repr t c w).2.
Proof.
  intros Hw. unfold get_distinct_values.
  apply (cache_data_preserves (unwritten d l)); try done.
  intros w' Hw'. unfold get_distinct_values_body.
  apply (bind_preserves (unwritten d l)); [by apply fetch_df_unwritten|].
  intros df w'' Hw''. apply (bind_preserves (unwritten d l)).
  - by rewrite getitem_state.
  - done.
Qed.

Lemma tables_present_unwritten d l (w : world DB) :
  unwritten d l w → unwritten d l (tables_present read_sql w).2.
Proof.
  intros Hw. unfold tables_present.
  apply (cache_data_preserves (unwritten d l)); try done.
  intros w' Hw'. unfold tables_present_body.
  apply (bind_preserves (unwritten d l)); [by apply fetch_df_unwritten|].
  intros df w'' Hw''. apply (bind_preserves (unwritten d l)).
  - by rewrite getitem_state.
  - done.
Qed.

Ltac unwritten_step :=
  first
    [ done
    | by apply fetch_df_unwritten
    | by apply get_distinct_values_unwritten
    | by apply tables_present_unwritten
    | apply bind_preserves; [|intros ? ? ?] ].

Lemma check_tables_unwritten d l (w : world DB) :
  unwritten d l w → unwritten d l (check_tables read_sql w).2.
Proof.
  intros Hw. unfold check_tables. repeat unwritten_step.
  case_decide; repeat unwritten_step.
Qed.

Lemma sidebar_unwritten d l (w : world DB) :
  unwritten d l w → unwritten d l (sidebar read_sql float_repr w).2.
Proof. intros Hw. unfold sidebar. repeat unwritten_step. Qed.

Lemma browse_page_unwritten d l i (w : world DB) :
  unwritten d l w → unwritten d l (browse_page read_sql i w).2.
Proof. intros Hw. unfold browse_page. repeat unwritten_step. Qed.

Lemma contact_page_unwritten d l i (w : world DB) :
  unwritten d l w → unwritten d l (contact_page read_sql float_repr i w).2.
Proof. intros Hw. unfold contact_page. repeat unwritten_step. Qed.

Lemma reports_page_unwritten d l i (w : world DB) :
  unwritten d l w → unwritten d l (reports_page read_sql float_repr i w).2.
Proof.
  intros Hw. unfold reports_page. repeat unwritten_step.
  - destruct (contains "Q4" (choice i)); repeat unwritten_step.
  - destruct (query_of (choice i) QUERIES); repeat unwritten_step.
  - destruct (frame_is_empty _); repeat unwritten_step.
Qed.

Lemma crud_page_unwritten d l i (w : world DB) :
  untouched i →
  unwritten d l w → unwritten d l (crud_page read_sql exec_sql i w).2.
Proof.
  intros (Hs & Hu & Hdel) Hw.
  unfold crud_page, create_column, update_column, delete_column.
  rewrite Hs, Hu, Hdel. repeat unwritten_step.
Qed.

(** X4.  A run of the script on the browse, contact or report page, or on
    the CRUD page with no form submitted and no button pressed, leaves
    the store as it was and hands it no write statement. *)
Theorem reading_pages_never_write i (w : world DB) :
  mode_choice i ≠ CRUDOperations ∨ untouched i →
  let w' := (app read_sql exec_sql float_repr i w).2 in
  db w' = db w ∧ writes_of (store_log w') = writes_of (store_log w).
Proof.
  intros Hi w'. unfold w', app.
  apply (bind_preserves (unwritten (db w) (writes_of (store_log w))));
    [done|]. intros _ w1 Hw1.
  apply (bind_preserves (unwritten (db w) (writes_of (store_log w))));
    [by apply check_tables_unwritten|]. intros _ w2 Hw2.
  apply (bind_preserves (unwritten (db w) (writes_of (store_log w))));
    [by apply sidebar_unwritten|]. intros _ w3 Hw3.
  destruct (mode_choice i).
  - by apply browse_page_unwritten.
  - by apply contact_page_unwritten.
  - destruct Hi as [|Hi]; [done|]. by apply crud_page_unwritten.
  - by apply reports_page_unwritten.
Qed.

Lemma occurrences_space_replace s t :
  occurrences " " (replace_spaces s +:+ t) = occurrences " " t.
Proof.
  induction s as [|c s IH]; [done|].
  cbn [replace_spaces]. change (String ?a ?x +:+ t) with (String a (x +:+ t)).
  cbn [occurrences]. rewrite IH.
  destruct (decide (c = " "%char)) as [->|Hc]; [done|].
  cbn [String.prefix]. destruct (ascii_dec " " c) as [<-|]; done.
Qed.

(** X9.  On the report page, for a report other than Q4, the page ends
    with the row count and the table, followed by the download button
    exactly when the frame is not empty; after a read that failed at the
    store it shows the error, "Returned 0 row(s)" and the empty table,
    and no download.  The file name offered has no space in it. *)
Theorem report_offers_download_iff_rows i (w : world DB) q :
  contains "Q4" (choice i) = false →
  query_of (choice i) QUERIES = Some q →
  let w0 := set_out (out w ++ [Subheader "Predefined Reports (16 SQL Queries)"]) w in
  (∃ df wf,
      fetch_df read_sql q None w0 = (Ok df, wf)
      ∧ reports_page read_sql float_repr i w
        = (Ok (),
           set_out
             (out wf ++
              [Caption ("Returned " +:+ pretty (frame_len df) +:+ " row(s)");
               Table df] ++
              (if frame_is_empty df then []
               else [DownloadButton (replace_spaces (choice i) +:+ ".csv") df]))
             wf))
  ∧ (∀ e, cache_hit 60 (q, None) (fetch_cache w) (now w) = None →
          read_sql q None (db w) = inl e →
          ∃ w', reports_page read_sql float_repr i w = (Ok (), w')
            ∧ out w'
              = out w ++
                [Subheader "Predefined Reports (16 SQL Queries)";
                 ErrorBox ("SQL error: " +:+ e);
                 Caption "Returned 0 row(s)"; Table empty_frame])
  ∧ occurrences " " (replace_spaces (choice i) +:+ ".csv") = 0%nat.
Proof.
  intros H4 Hq w0.
  assert (∀ df wf, fetch_df read_sql q None w0 = (Ok df, wf) →
            reports_page read_sql float_repr i w
            = (Ok (),
               set_out
                 (out wf ++
                  [Caption ("Returned " +:+ pretty (frame_len df) +:+ " row(s)");
                   Table df] ++
                  (if frame_is_empty df then []
                   else [DownloadButton (replace_spaces (choice i) +:+ ".csv") df]))
                 wf)) as Hpage.
  { intros df wf Hf. unfold reports_page.
    erewrite bind_ok; [|reflexivity]. rewrite H4, Hq.
    erewrite bind_ok; [|reflexivity]. erewrite bind_ok; [|reflexivity].
    erewrite bind_ok; [|exact Hf].
    erewrite bind_ok; [|reflexivity]. erewrite bind_ok; [|reflexivity].
    destruct (frame_is_empty df); unfold mret, M_ret, emit, set_out; cbn;
      rewrite <- ?app_assoc; cbn; rewrite ?app_nil_r; done. }
  split_and!.
  - destruct (fetch_df_ok read_sql q None w0) as (df & wf & Hf & _).
    exists df, wf. split; [done|]. by apply Hpage.
  - intros e Hc He. eexists. split.
    + apply Hpage. unfold w0. rewrite fetch_df_miss by exact Hc.
      unfold read_value, read_msgs. cbn [db set_out]. rewrite He. reflexivity.
    + cbn. by rewrite <- !app_assoc.
  - apply occurrences_space_replace.
Qed.





End LayerExtras.

(** * Further properties over the SQLite fragment *)
Section SQLiteExtras.

Import SQLite.



















End SQLiteExtras.

(** * Concrete runs for the further properties *)
Section ExtraScenarios.
Import SQLite Samples.



(** X2 on a store that cannot be opened. *)
Lemma app_raises_when_catalogue_read_fails_witness :
  ∃ w', app offline_read offline_exec float_repr idle (startup () 0)
        = (Raise (KeyError "name"), w')
    ∧ out w' = [Title "Local Food Wastage Management System";
                ErrorBox "SQL error: unable to open database file"].
Proof.
  destruct (app_raises_when_catalogue_read_fails offline_read offline_exec
              float_repr idle () 0%nat "unable to open database file" eq_refl)
    as (w' & Hrun & Hout & _).
  exists w'. split; [exact Hrun|exact Hout].
Defined.

(** X3: the tables are gone after the check, the check still passes. *)
Lemma table_check_is_not_repeated_witness :
  let w1 := (check_tables read_sql (startup fresh_store 0)).2 in
  let w2 := set_now 59 (set_db partial_store
              (run_write exec_sql insert_claim_q
                 (Some (claim_params 10 1 Pending "2026-01-01T09:00:00"))
                 w1).2) in
  check_tables read_sql w2 = (Ok (), w2).
Proof.
  apply (table_check_is_not_repeated read_sql exec_sql fresh_store 0
           (mkDataFrame ["name"]
              [[VText "providers"]; [VText "receivers"];
               [VText "food_listings"]; [VText "claims"]])
           [VText "providers"; VText "receivers"; VText "food_listings";
            VText "claims"]
           insert_claim_q
           (Some (claim_params 10 1 Pending "2026-01-01T09:00:00"))
           partial_store 59 eq_refl eq_refl).
  - compute_done.
  - lia.
Defined.

(** X4 on the browse page. *)
Lemma reading_pages_never_write_witness :
  let w' := (app read_sql exec_sql float_repr idle (startup acme_store 0)).2 in
  db w' = acme_store ∧ writes_of (store_log w') = [].
Proof.
  apply (reading_pages_never_write read_sql exec_sql float_repr idle
           (startup acme_store 0)).
  left. discriminate.
Defined.





(** X9 on report Q11 over three claims. *)
Lemma report_offers_download_iff_rows_witness :
  ∃ df wf,
    reports_page read_sql float_repr report_Q11 (startup claims_store 0)
    = (Ok (),
       set_out
         (out wf ++
          [Caption ("Returned " +:+ pretty (frame_len df) +:+ " row(s)");
           Table df] ++
          (if frame_is_empty df then []
           else [DownloadButton "Q11:_Claim_status_distribution.csv" df]))
         wf).
Proof.
  destruct (report_offers_download_iff_rows read_sql float_repr report_Q11
              (startup claims_store 0) Q11 eq_refl eq_refl)
    as ((df & wf & _ & Hpage) & _ & _).
  exists df, wf. exact Hpage.
Defined.



End ExtraScenarios.
